(** * Novile editor widget (src/src/editor.cpp)

    Shallow embedding of [Novile::Editor] and [Novile::EditorPrivate].
    Every public operation of the widget builds a JavaScript source string
    and hands it to [EditorPrivate::executeJavaScript], which evaluates it
    in the page hosting the Ace editor and converts the result to a
    [QVariant].  The development therefore has three layers:
    - [Js]: the fragment of JavaScript the snippets of editor.cpp are written
      in (a lexer, a parser and the page-side objects they call);
    - [Qt]: the [QVariant] conversions [toInt], [toString], [toBool] and
      [QString::number];
    - [Novile]: the widget itself, as a state monad over the page and a log
      of the calls made into the browser engine. *)

From Stdlib Require Import String Ascii ZArith List Bool Lia.
From Stdlib Require Import Decimal DecimalZ DecimalString.
Import ListNotations.
Open Scope string_scope.

Definition LF : ascii := Ascii.ascii_of_nat 10.
Definition CR : ascii := Ascii.ascii_of_nat 13.
Definition TAB : ascii := Ascii.ascii_of_nat 9.
Definition DQUOTE : ascii := Ascii.ascii_of_nat 34.

(** A string contains the character [c]. *)
Fixpoint has_char (c : ascii) (s : string) : bool :=
  match s with
  | EmptyString => false
  | String x r => Ascii.eqb x c || has_char c r
  end.

Module Js.

(** JavaScript values the snippets produce or consume.  Numbers only ever
    carry integers here (line numbers and line counts). *)
Inductive jsval :=
| JUndefined
| JBool (b : bool)
| JNum (z : Z)
| JStr (s : string).

(** ** Lexer

    One character is consumed per step, so the lexer is structural on the
    source.  String literals follow ECMAScript: a raw line terminator ends
    the program with a SyntaxError, a backslash starts an escape sequence.
    Hexadecimal, unicode and octal escapes are outside the modelled fragment
    and are rejected. *)
Inductive token :=
| TIdent (x : string)
| TStr (s : string)
| TNum (d : uint)
| TDot | TLParen | TRParen | TComma | TSemi | TMinus
| TNL.

Inductive lexst :=
| LTop
| LIdent (acc : string)
| LNum (acc : string)
| LStr (q : ascii) (acc : string)
| LEsc (q : ascii) (acc : string).

Definition is_digit (c : ascii) : bool :=
  let n := Ascii.nat_of_ascii c in (48 <=? n)%nat && (n <=? 57)%nat.

Definition is_ident_start (c : ascii) : bool :=
  let n := Ascii.nat_of_ascii c in
  ((65 <=? n)%nat && (n <=? 90)%nat) || ((97 <=? n)%nat && (n <=? 122)%nat)
  || Ascii.eqb c "_" || Ascii.eqb c "$".

Definition is_ident_char (c : ascii) : bool := is_ident_start c || is_digit c.

(** A [string] stands for a [QString] whose characters all lie in Latin-1
    (code points 0 to 255), one [ascii] per character.  In that range the
    line terminators of JavaScript are exactly LF and CR; U+2028 and U+2029
    lie outside it, so no result here speaks about texts holding them. *)
Definition is_line_terminator (c : ascii) : bool := Ascii.eqb c LF || Ascii.eqb c CR.

(** What a character starts when no token is in progress. *)
Definition dispatch (c : ascii) : option (list token * lexst) :=
  if Ascii.eqb c " " || Ascii.eqb c TAB then Some ([], LTop)
  else if is_line_terminator c then Some ([TNL], LTop)
  else if Ascii.eqb c "." then Some ([TDot], LTop)
  else if Ascii.eqb c "(" then Some ([TLParen], LTop)
  else if Ascii.eqb c ")" then Some ([TRParen], LTop)
  else if Ascii.eqb c "," then Some ([TComma], LTop)
  else if Ascii.eqb c ";" then Some ([TSemi], LTop)
  else if Ascii.eqb c "-" then Some ([TMinus], LTop)
  else if Ascii.eqb c "'" || Ascii.eqb c DQUOTE then Some ([], LStr c "")
  else if is_digit c then Some ([], LNum (String c ""))
  else if is_ident_start c then Some ([], LIdent (String c ""))
  else None.

(** The character denoted by [\c] inside a string literal ([Some ""] for a
    line continuation). *)
Definition escape (c : ascii) : option string :=
  if Ascii.eqb c "n" then Some (String LF "")
  else if Ascii.eqb c "t" then Some (String TAB "")
  else if Ascii.eqb c "r" then Some (String CR "")
  else if Ascii.eqb c "b" then Some (String (Ascii.ascii_of_nat 8) "")
  else if Ascii.eqb c "f" then Some (String (Ascii.ascii_of_nat 12) "")
  else if Ascii.eqb c "v" then Some (String (Ascii.ascii_of_nat 11) "")
  else if Ascii.eqb c "0" then Some (String (Ascii.ascii_of_nat 0) "")
  else if Ascii.eqb c LF then Some ""
  else if Ascii.eqb c "x" || Ascii.eqb c "u" || Ascii.eqb c CR || is_digit c
  then None
  else Some (String c "").

(** [out] holds the tokens read so far, last first. *)
Fixpoint lex_from (s : string) (st : lexst) (out : list token) : option (list token) :=
  match s with
  | EmptyString =>
      match st with
      | LTop => Some (List.rev out)
      | LIdent a => Some (List.rev (TIdent a :: out))
      | LNum a =>
          match NilEmpty.uint_of_string a with
          | Some d => Some (List.rev (TNum d :: out))
          | None => None
          end
      | LStr _ _ | LEsc _ _ => None
      end
  | String c r =>
      match st with
      | LTop =>
          match dispatch c with
          | Some (ts, st') => lex_from r st' (List.rev_append ts out)
          | None => None
          end
      | LIdent a =>
          if is_ident_char c then lex_from r (LIdent (a ++ String c "")) out
          else match dispatch c with
               | Some (ts, st') => lex_from r st' (List.rev_append ts (TIdent a :: out))
               | None => None
               end
      | LNum a =>
          if is_digit c then lex_from r (LNum (a ++ String c "")) out
          else match NilEmpty.uint_of_string a, dispatch c with
               | Some d, Some (ts, st') => lex_from r st' (List.rev_append ts (TNum d :: out))
               | _, _ => None
               end
      | LStr q a =>
          if Ascii.eqb c q then lex_from r LTop (TStr a :: out)
          else if Ascii.eqb c "\" then lex_from r (LEsc q a) out
          else if is_line_terminator c then None
          else lex_from r (LStr q (a ++ String c "")) out
      | LEsc q a =>
          match escape c with
          | Some e => lex_from r (LStr q (a ++ e)) out
          | None => None
          end
      end
  end.

Definition lex (s : string) : option (list token) := lex_from s LTop [].

(** ** Parser

    A statement of the fragment is a member/call chain rooted at an
    identifier, [editor.getSession().setMode('ace/mode/css')] say, whose
    arguments are literals.  Statements are separated by [;]; a line break
    ends a statement when the next token cannot continue it (automatic
    semicolon insertion).  Anything else is a SyntaxError. *)
Inductive seg :=
| SName (x : string)
| SCall (args : list jsval).

Definition stmt := list seg.

Fixpoint drop_nl (ts : list token) : list token :=
  match ts with
  | TNL :: r => drop_nl r
  | _ => ts
  end.

Definition parse_lit (ts : list token) : option (jsval * list token) :=
  match drop_nl ts with
  | TStr s :: r => Some (JStr s, r)
  | TNum d :: r => Some (JNum (Z.of_uint d), r)
  | TMinus :: r =>
      match drop_nl r with
      | TNum d :: r' => Some (JNum (- Z.of_uint d), r')
      | _ => None
      end
  | TIdent "true" :: r => Some (JBool true, r)
  | TIdent "false" :: r => Some (JBool false, r)
  | TIdent "undefined" :: r => Some (JUndefined, r)
  | _ => None
  end.

(** Arguments after the first one, up to the closing parenthesis. *)
Fixpoint parse_args_tail (fuel : nat) (ts : list token) (acc : list jsval)
  : option (list jsval * list token) :=
  match fuel with
  | O => None
  | S f =>
      match drop_nl ts with
      | TRParen :: r => Some (List.rev acc, r)
      | TComma :: r =>
          match parse_lit r with
          | Some (v, r') => parse_args_tail f r' (v :: acc)
          | None => None
          end
      | _ => None
      end
  end.

(** Arguments right after an opening parenthesis. *)
Definition parse_args (fuel : nat) (ts : list token) : option (list jsval * list token) :=
  match drop_nl ts with
  | TRParen :: r => Some ([], r)
  | _ =>
      match parse_lit ts with
      | Some (v, r) => parse_args_tail fuel r [v]
      | None => None
      end
  end.

Fixpoint parse_chain (fuel : nat) (ts : list token) (acc : stmt)
  : option (stmt * list token) :=
  match fuel with
  | O => None
  | S f =>
      match drop_nl ts with
      | TDot :: r =>
          match drop_nl r with
          | TIdent x :: r' => parse_chain f r' (acc ++ [SName x])%list
          | _ => None
          end
      | TLParen :: r =>
          match parse_args f r with
          | Some (args, r') => parse_chain f r' (acc ++ [SCall args])%list
          | None => None
          end
      | _ =>
          match ts with
          | [] => Some (acc, [])
          | TSemi :: r => Some (acc, r)
          | TNL :: r => Some (acc, r)
          | _ => None
          end
      end
  end.

Fixpoint parse_prog (fuel : nat) (ts : list token) (acc : list stmt)
  : option (list stmt) :=
  match fuel with
  | O => None
  | S f =>
      match ts with
      | [] => Some (List.rev acc)
      | TSemi :: r | TNL :: r => parse_prog f r acc
      | TIdent x :: r =>
          match parse_chain f r [SName x] with
          | Some (st, r') => parse_prog f r' (st :: acc)
          | None => None
          end
      | _ => None
      end
  end.

(** [None] is a SyntaxError: the engine then runs nothing of the program. *)
Definition parse (code : string) : option (list stmt) :=
  match lex code with
  | Some ts => parse_prog (S (length ts)) ts []
  | None => None
  end.

End Js.

Module Page.
Import Js.

(** Modelled from the spec: the page [qrc:/html/ace.html] with the Ace
    editor and jQuery, and the helper script [data/wrapper.js], are not in
    src/.  Following the spec (4.1, 4.2), the page exposes the Ace [editor]
    object, jQuery's [$.getScript], and once the helper script has run a
    function [property(name)] reading a page-side property and
    [property(name, value)] writing one; the ["text"] and ["lines"]
    properties read the editor's current value and line count. *)
Record page := mkPage {
  pg_loaded : bool;       (** ace.html finished loading: [editor], [$] exist *)
  pg_novile : bool;       (** the [Novile] callback object is injected *)
  pg_wrapper : bool;      (** wrapper.js ran: [property] exists *)
  pg_props : list (string * jsval);
  pg_text : string;       (** the Ace document *)
  pg_selection : bool;    (** a selection is active *)
  pg_row : Z;             (** cursor row, from 0 *)
  pg_readonly : bool;     (** Ace's built-in read-only flag *)
  pg_mode : string;       (** the session's syntax mode *)
  pg_theme : string;
  pg_scripts : list string (** scripts requested through [$.getScript] *)
}.

Definition blank_page : page :=
  mkPage false false false [] "" false 0 false "" "" [].

Definition bootstrapped (pg : page) : bool :=
  pg_loaded pg && pg_novile pg && pg_wrapper pg.

(** Ace's document splits its value at [\r\n], [\r] and [\n]. *)
Fixpoint line_breaks (s : string) : nat :=
  match s with
  | EmptyString => 0
  | String c r =>
      if Ascii.eqb c CR then
        match r with
        | String c' r' => if Ascii.eqb c' LF then S (line_breaks r') else S (line_breaks r)
        | EmptyString => 1
        end
      else if Ascii.eqb c LF then S (line_breaks r) else line_breaks r
  end.

Definition doc_length (pg : page) : Z := Z.of_nat (S (line_breaks (pg_text pg))).

Fixpoint prop_lookup (k : string) (ps : list (string * jsval)) : jsval :=
  match ps with
  | [] => JUndefined
  | (k', v) :: r => if String.eqb k k' then v else prop_lookup k r
  end.

Definition property_get (pg : page) (k : string) : jsval :=
  if String.eqb k "text" then JStr (pg_text pg)
  else if String.eqb k "lines" then JNum (doc_length pg)
  else prop_lookup k (pg_props pg).

Definition with_props (pg : page) (ps : list (string * jsval)) : page :=
  mkPage (pg_loaded pg) (pg_novile pg) (pg_wrapper pg) ps (pg_text pg)
    (pg_selection pg) (pg_row pg) (pg_readonly pg) (pg_mode pg) (pg_theme pg)
    (pg_scripts pg).

(** [editor.setValue(t)]: replaces the document and, with no cursor
    argument, selects all of it. *)
Definition with_value (pg : page) (t : string) : page :=
  mkPage (pg_loaded pg) (pg_novile pg) (pg_wrapper pg) (pg_props pg) t
    true (Z.of_nat (line_breaks t)) (pg_readonly pg) (pg_mode pg) (pg_theme pg)
    (pg_scripts pg).

Definition with_selection (pg : page) (b : bool) : page :=
  mkPage (pg_loaded pg) (pg_novile pg) (pg_wrapper pg) (pg_props pg) (pg_text pg)
    b (pg_row pg) (pg_readonly pg) (pg_mode pg) (pg_theme pg) (pg_scripts pg).

Definition with_row (pg : page) (r : Z) : page :=
  mkPage (pg_loaded pg) (pg_novile pg) (pg_wrapper pg) (pg_props pg) (pg_text pg)
    (pg_selection pg) r (pg_readonly pg) (pg_mode pg) (pg_theme pg) (pg_scripts pg).

Definition with_readonly (pg : page) (b : bool) : page :=
  mkPage (pg_loaded pg) (pg_novile pg) (pg_wrapper pg) (pg_props pg) (pg_text pg)
    (pg_selection pg) (pg_row pg) b (pg_mode pg) (pg_theme pg) (pg_scripts pg).

Definition with_mode (pg : page) (m : string) : page :=
  mkPage (pg_loaded pg) (pg_novile pg) (pg_wrapper pg) (pg_props pg) (pg_text pg)
    (pg_selection pg) (pg_row pg) (pg_readonly pg) m (pg_theme pg) (pg_scripts pg).

Definition with_theme (pg : page) (t : string) : page :=
  mkPage (pg_loaded pg) (pg_novile pg) (pg_wrapper pg) (pg_props pg) (pg_text pg)
    (pg_selection pg) (pg_row pg) (pg_readonly pg) (pg_mode pg) t (pg_scripts pg).

Definition with_script (pg : page) (u : string) : page :=
  mkPage (pg_loaded pg) (pg_novile pg) (pg_wrapper pg) (pg_props pg) (pg_text pg)
    (pg_selection pg) (pg_row pg) (pg_readonly pg) (pg_mode pg) (pg_theme pg)
    (pg_scripts pg ++ [u])%list.

(** Ace clips [gotoLine(n)] to the document: row [n - 1] within
    [0 .. length - 1]. *)
Definition clip_row (pg : page) (n : Z) : Z :=
  Z.max 0 (Z.min (n - 1) (doc_length pg - 1)).

(** The page API the snippets call. *)
Inductive action :=
| APropGet (k : string)
| APropSet (k : string) (v : jsval)
| ASetValue (t : string)
| AClearSelection
| ASetReadOnly (b : bool)
| AGotoLine (n : Z)
| AGetScript (u : string)
| ASetMode (m : string)
| ASetTheme (t : string).

Definition decode (st : stmt) : option action :=
  match st with
  | [SName "property"; SCall [JStr k]] => Some (APropGet k)
  | [SName "property"; SCall [JStr k; v]] => Some (APropSet k v)
  | [SName "editor"; SName "setValue"; SCall [JStr t]] => Some (ASetValue t)
  | [SName "editor"; SName "selection"; SName "clearSelection"; SCall []] =>
      Some AClearSelection
  | [SName "editor"; SName "setReadOnly"; SCall [JBool b]] => Some (ASetReadOnly b)
  | [SName "editor"; SName "gotoLine"; SCall [JNum n]] => Some (AGotoLine n)
  | [SName "$"; SName "getScript"; SCall [JStr u]] => Some (AGetScript u)
  | [SName "editor"; SName "getSession"; SCall []; SName "setMode"; SCall [JStr m]] =>
      Some (ASetMode m)
  | [SName "editor"; SName "setTheme"; SCall [JStr t]] => Some (ASetTheme t)
  | _ => None
  end.

(** [property] exists once the helper script ran, [editor] and [$] once
    the page loaded; [None] is a thrown exception (a ReferenceError). *)
Definition perform (pg : page) (a : action) : option jsval * page :=
  match a with
  | APropGet k =>
      if pg_wrapper pg then (Some (property_get pg k), pg) else (None, pg)
  | APropSet k v =>
      if pg_wrapper pg then (Some JUndefined, with_props pg ((k, v) :: pg_props pg))
      else (None, pg)
  | ASetValue t => if pg_loaded pg then (Some (JStr t), with_value pg t) else (None, pg)
  | AClearSelection =>
      if pg_loaded pg then (Some JUndefined, with_selection pg false) else (None, pg)
  | ASetReadOnly b =>
      if pg_loaded pg then (Some JUndefined, with_readonly pg b) else (None, pg)
  | AGotoLine n =>
      if pg_loaded pg then (Some JUndefined, with_row pg (clip_row pg n)) else (None, pg)
  | AGetScript u => if pg_loaded pg then (Some JUndefined, with_script pg u) else (None, pg)
  | ASetMode m => if pg_loaded pg then (Some JUndefined, with_mode pg m) else (None, pg)
  | ASetTheme t => if pg_loaded pg then (Some JUndefined, with_theme pg t) else (None, pg)
  end.

(** One statement against the page; a statement outside the page API
    above throws (a TypeError or ReferenceError).  This is the API the
    snippets of editor.cpp call; other code, which only a text spliced into
    a snippet could bring in (an assignment, [location.reload()], ...), is
    not modelled, so a result quantified over spliced texts is stated only
    for texts that cannot leave their string literal. *)
Definition call (pg : page) (st : stmt) : option jsval * page :=
  match decode st with
  | Some a => perform pg a
  | None => (None, pg)
  end.

(** Statements run in order; the program's value is the value of the last
    statement.  An exception stops the run and keeps the effects so far. *)
Fixpoint run_stmts (pg : page) (ss : list stmt) (last : jsval) : option jsval * page :=
  match ss with
  | [] => (Some last, pg)
  | s :: r =>
      match call pg s with
      | (Some v, pg') => run_stmts pg' r v
      | (None, pg') => (None, pg')
      end
  end.

(** Modelled from the spec: the text of data/wrapper.js is not in src/; the
    engine knows it by this name, and running it defines [property] and wires
    the change listeners to the [Novile] object (which needs the editor). *)
Definition wrapper_js : string := "/* data/wrapper.js */".

Definition run_wrapper (pg : page) : option jsval * page :=
  if pg_loaded pg then
    (Some JUndefined,
     mkPage (pg_loaded pg) (pg_novile pg) true (pg_props pg) (pg_text pg)
       (pg_selection pg) (pg_row pg) (pg_readonly pg) (pg_mode pg) (pg_theme pg)
       (pg_scripts pg))
  else (None, pg).

(** [QWebFrame::evaluateJavaScript]: a SyntaxError runs nothing. *)
Definition eval_js (pg : page) (code : string) : option jsval * page :=
  if String.eqb code wrapper_js then run_wrapper pg
  else match parse code with
       | Some ss => run_stmts pg ss JUndefined
       | None => (None, pg)
       end.

End Page.

Module Qt.
Import Js.

(** [QVariant], with the types evaluateJavaScript produces here. *)
Inductive qvariant :=
| QInvalid
| QBool (b : bool)
| QInt (z : Z)
| QString (s : string).

(** QtWebKit's conversion of a JavaScript value: [undefined] and a thrown
    exception give an invalid [QVariant]. *)
Definition of_js (r : option jsval) : qvariant :=
  match r with
  | Some (JBool b) => QBool b
  | Some (JNum z) => QInt z
  | Some (JStr s) => QString s
  | Some JUndefined | None => QInvalid
  end.

(** [QString::number(int)]. *)
Definition number (n : Z) : string := NilEmpty.string_of_int (Z.to_int n).

Definition int_min : Z := - 2 ^ 31.
Definition int_max : Z := 2 ^ 31 - 1.

(** [QString::toInt]: decimal, optional sign, 0 when it does not parse or
    does not fit an [int]. *)
Definition string_to_int (s : string) : Z :=
  match s with
  | EmptyString => 0
  | _ =>
      match NilEmpty.int_of_string s with
      | Some d => let z := Z.of_int d in
                  if Z.leb int_min z && Z.leb z int_max then z else 0
      | None => 0
      end
  end.

Definition lower (c : ascii) : ascii :=
  let n := Ascii.nat_of_ascii c in
  if (65 <=? n)%nat && (n <=? 90)%nat then Ascii.ascii_of_nat (n + 32) else c.

Fixpoint lower_string (s : string) : string :=
  match s with
  | EmptyString => EmptyString
  | String c r => String (lower c) (lower_string r)
  end.

Definition toInt (v : qvariant) : Z :=
  match v with
  | QInvalid => 0
  | QBool b => if b then 1 else 0
  | QInt z => z
  | QString s => string_to_int s
  end.

Definition toString (v : qvariant) : string :=
  match v with
  | QInvalid => ""
  | QBool b => if b then "true" else "false"
  | QInt z => number z
  | QString s => s
  end.

(** [QVariant::toBool] on a string is false for "", "0" and "false" in any
    case. *)
Definition toBool (v : qvariant) : bool :=
  match v with
  | QInvalid => false
  | QBool b => b
  | QInt z => negb (Z.eqb z 0)
  | QString s =>
      negb (String.eqb s "" || String.eqb s "0" || String.eqb (lower_string s) "false")
  end.

End Qt.

Module Novile.
Import Js Page Qt.

(** Calls made into the browser engine, in order.  [EvEval code ready]
    records an evaluation and, as ghost data, whether the page was
    bootstrapped at that moment. *)
Inductive event :=
| EvLoad (url : string)
| EvLoadFinished (ok : bool)
| EvInject (name : string)
| EvEval (code : string) (ready : bool).

Record world := mkWorld { w_page : page; w_log : list event }.

(** The widget's state monad. *)
Definition M (A : Type) : Type := world -> A * world.

Definition ret {A} (a : A) : M A := fun w => (a, w).

Definition bind {A B} (m : M A) (k : A -> M B) : M B :=
  fun w => let (a, w') := m w in k a w'.

Notation "x <- m ;; k" := (bind m (fun x => k))
  (at level 61, m at next level, right associativity).

(** Bundled resources: whether [qrc:/html/ace.html] loads and whether
    [:/html/wrapper.js] opens. *)
Record resources := mkResources { res_ace_html : bool; res_wrapper : bool }.

Definition bundled : resources := mkResources true true.

(** [EditorPrivate::executeJavaScript]. *)
Definition executeJavaScript (code : string) : M qvariant :=
  fun w =>
    let (r, pg') := eval_js (w_page w) code in
    (of_js r, mkWorld pg' (w_log w ++ [EvEval code (bootstrapped (w_page w))])%list).

(** [aceView->load(url)] followed by the nested event loop, which quits on
    [loadFinished] whatever its [ok] argument. *)
Definition load_and_wait (res : resources) : M unit :=
  fun w =>
    let pg := w_page w in
    (tt, mkWorld
           (mkPage (res_ace_html res) (pg_novile pg) (pg_wrapper pg) (pg_props pg)
              (pg_text pg) (pg_selection pg) (pg_row pg) (pg_readonly pg)
              (pg_mode pg) (pg_theme pg) (pg_scripts pg))
           (w_log w ++ [EvLoad "qrc:/html/ace.html"; EvLoadFinished (res_ace_html res)])%list).

(** [frame->addToJavaScriptWindowObject("Novile", this)]. *)
Definition addToJavaScriptWindowObject (name : string) : M unit :=
  fun w =>
    let pg := w_page w in
    (tt, mkWorld
           (mkPage (pg_loaded pg) true (pg_wrapper pg) (pg_props pg)
              (pg_text pg) (pg_selection pg) (pg_row pg) (pg_readonly pg)
              (pg_mode pg) (pg_theme pg) (pg_scripts pg))
           (w_log w ++ [EvInject name])%list).

(** [EditorPrivate::startAceWidget]. *)
Definition startAceWidget (res : resources) : M unit :=
  _ <- load_and_wait res ;;
  _ <- addToJavaScriptWindowObject "Novile" ;;
  if res_wrapper res then (_ <- executeJavaScript wrapper_js ;; ret tt)
  else ret tt.

Definition initial_world : world := mkWorld blank_page [].

(** [Editor::Editor]: the widget as the constructor returns it. *)
Definition Editor (res : resources) : world := snd (startAceWidget res initial_world).

(** [Editor::lines]. *)
Definition lines : M Z :=
  v <- executeJavaScript "property('lines')" ;; ret (toInt v).

Definition gotoLine_code (lineNumber : Z) : string :=
  "editor.gotoLine(" ++ number lineNumber ++ ")".

(** [Editor::gotoLine]. *)
Definition gotoLine (lineNumber : Z) : M unit :=
  _ <- executeJavaScript (gotoLine_code lineNumber) ;; ret tt.

(** [Editor::text]. *)
Definition text : M string :=
  v <- executeJavaScript "property('text')" ;; ret (toString v).

Definition setText_code (newText : string) : string :=
  "editor.setValue('" ++ newText ++ "')".

(** [Editor::setText]. *)
Definition setText (newText : string) : M unit :=
  _ <- executeJavaScript (setText_code newText) ;;
  _ <- executeJavaScript "editor.selection.clearSelection()" ;;
  ret tt.

(** [Editor::isReadOnly]. *)
Definition isReadOnly : M bool :=
  v <- executeJavaScript "property('readonly')" ;; ret (toBool v).

(** [Editor::setReadOnly]: the two string literals of each branch are
    concatenated by the C++ compiler. *)
Definition setReadOnly (readOnly : bool) : M unit :=
  if readOnly then
    (_ <- executeJavaScript ("property('readonly', true);" ++
                             "editor.setReadOnly(true);") ;; ret tt)
  else
    (_ <- executeJavaScript ("property('readonly', false)" ++
                             "editor.setReadOnly(false);") ;; ret tt).

(** [QUrl::toString] is the identity on the [qrc:] URLs used here. *)
Definition QUrl := string.

(** [Editor::setHighlightMode(const QString &, const QUrl &)]. *)
Definition setHighlightMode_by_name (name : string) (url : QUrl) : M unit :=
  let request := "" ++ "$.getScript('" ++ url ++ "');" ++
                 "editor.getSession().setMode('ace/mode/" ++ name ++ "');" in
  _ <- executeJavaScript request ;; ret tt.

(** [Editor::setTheme(const QString &, const QUrl &)]. *)
Definition setTheme_by_name (name : string) (url : QUrl) : M unit :=
  let request := "" ++ "$.getScript('" ++ url ++ "');" ++
                 "editor.setTheme('ace/theme/" ++ name ++ "');" in
  _ <- executeJavaScript request ;; ret tt.

(** Modelled from the spec: editor.h, which declares the enumerations, is
    not in src/.  An unscoped C++ enumeration is an integer; its enumerators
    are taken in the order of the [switch] of editor.cpp, numbered from 0 as
    C++ does without initialisers. *)
Definition HighlightMode := Z.
Definition ModeCpp : HighlightMode := 0%Z.
Definition ModeCss : HighlightMode := 1%Z.
Definition ModeHtml : HighlightMode := 2%Z.
Definition ModeJavaScript : HighlightMode := 3%Z.
Definition ModePascal : HighlightMode := 4%Z.
Definition ModePhp : HighlightMode := 5%Z.
Definition ModePython : HighlightMode := 6%Z.
Definition ModeRuby : HighlightMode := 7%Z.
Definition ModeXml : HighlightMode := 8%Z.

Definition Theme := Z.
Definition ThemeAmbiance : Theme := 0%Z.
Definition ThemeMonokai : Theme := 1%Z.
Definition ThemeTextMate : Theme := 2%Z.

(** [Editor::setHighlightMode(HighlightMode)]: a [switch] without a
    [default] label. *)
Definition setHighlightMode (mode : HighlightMode) : M unit :=
  if Z.eqb mode ModeCpp then setHighlightMode_by_name "c_cpp" "qrc:/ace/mode-c_cpp.js"
  else if Z.eqb mode ModeCss then setHighlightMode_by_name "css" "qrc:/ace/mode-css.js"
  else if Z.eqb mode ModeHtml then setHighlightMode_by_name "html" "qrc:/ace/mode-html.js"
  else if Z.eqb mode ModeJavaScript then
    setHighlightMode_by_name "javascript" "qrc:/ace/mode-javascript.js"
  else if Z.eqb mode ModePascal then setHighlightMode_by_name "pascal" "qrc:/ace/mode-pascal.js"
  else if Z.eqb mode ModePhp then setHighlightMode_by_name "php" "qrc:/ace/mode-php.js"
  else if Z.eqb mode ModePython then setHighlightMode_by_name "python" "qrc:/ace/mode-python.js"
  else if Z.eqb mode ModeRuby then setHighlightMode_by_name "ruby" "qrc:/ace/mode-ruby.js"
  else if Z.eqb mode ModeXml then setHighlightMode_by_name "xml" "qrc:/ace/mode-xml.js"
  else ret tt.

(** [Editor::setTheme(Theme)]. *)
Definition setTheme (theme : Theme) : M unit :=
  if Z.eqb theme ThemeAmbiance then setTheme_by_name "ambiance" "qrc:/ace/theme-ambiance.js"
  else if Z.eqb theme ThemeMonokai then setTheme_by_name "monokai" "qrc:/ace/theme-monokai.js"
  else if Z.eqb theme ThemeTextMate then setTheme_by_name "textmate" "qrc:/ace/theme-textmate.js"
  else ret tt.

(** The public operations, for sessions of calls on one widget. *)
Inductive op :=
| OpLines
| OpGotoLine (n : Z)
| OpText
| OpSetText (s : string)
| OpIsReadOnly
| OpSetReadOnly (b : bool)
| OpSetHighlightMode (m : HighlightMode)
| OpSetHighlightModeByName (name : string) (url : QUrl)
| OpSetTheme (t : Theme)
| OpSetThemeByName (name : string) (url : QUrl).

Definition run_op (o : op) : M unit :=
  match o with
  | OpLines => _ <- lines ;; ret tt
  | OpGotoLine n => gotoLine n
  | OpText => _ <- text ;; ret tt
  | OpSetText s => setText s
  | OpIsReadOnly => _ <- isReadOnly ;; ret tt
  | OpSetReadOnly b => setReadOnly b
  | OpSetHighlightMode m => setHighlightMode m
  | OpSetHighlightModeByName n u => setHighlightMode_by_name n u
  | OpSetTheme t => setTheme t
  | OpSetThemeByName n u => setTheme_by_name n u
  end.

Fixpoint run_ops (os : list op) : M unit :=
  match os with
  | [] => ret tt
  | o :: r => _ <- run_op o ;; run_ops r
  end.

End Novile.

(** Tables and predicates the properties of the widget are stated with. *)
Module Documented.
Import Js Page Qt Novile.

(** The mode identifiers the spec documents for the enumerators. *)
Definition documented_modes : list (HighlightMode * string) :=
  [(ModeCpp, "c_cpp"); (ModeCss, "css"); (ModeHtml, "html");
   (ModeJavaScript, "javascript"); (ModePascal, "pascal"); (ModePhp, "php");
   (ModePython, "python"); (ModeRuby, "ruby"); (ModeXml, "xml")].

Definition documented_themes : list (Theme * string) :=
  [(ThemeAmbiance, "ambiance"); (ThemeMonokai, "monokai"); (ThemeTextMate, "textmate")].

(** The identifier/URL pairs of the [switch] statements of editor.cpp. *)
Definition mode_table : list (HighlightMode * string * QUrl) :=
  [(ModeCpp, "c_cpp", "qrc:/ace/mode-c_cpp.js");
   (ModeCss, "css", "qrc:/ace/mode-css.js");
   (ModeHtml, "html", "qrc:/ace/mode-html.js");
   (ModeJavaScript, "javascript", "qrc:/ace/mode-javascript.js");
   (ModePascal, "pascal", "qrc:/ace/mode-pascal.js");
   (ModePhp, "php", "qrc:/ace/mode-php.js");
   (ModePython, "python", "qrc:/ace/mode-python.js");
   (ModeRuby, "ruby", "qrc:/ace/mode-ruby.js");
   (ModeXml, "xml", "qrc:/ace/mode-xml.js")].

Definition theme_table : list (Theme * string * QUrl) :=
  [(ThemeAmbiance, "ambiance", "qrc:/ace/theme-ambiance.js");
   (ThemeMonokai, "monokai", "qrc:/ace/theme-monokai.js");
   (ThemeTextMate, "textmate", "qrc:/ace/theme-textmate.js")].

Definition modes : list HighlightMode := map fst documented_modes.
Definition themes : list Theme := map fst documented_themes.

(** An evaluation that threw, or whose value is [undefined]. *)
Definition js_fails (r : option jsval) : bool :=
  match r with
  | None | Some JUndefined => true
  | Some _ => false
  end.





(** The part of the page a user edits: the document, Ace's read-only flag
    and the page-side properties. *)
Definition doc_state (pg : page) : string * bool * list (string * jsval) :=
  (pg_text pg, pg_readonly pg, pg_props pg).

End Documented.

Module Proofs.
Import Js Page Qt Novile Documented.

(** Strings: a few facts about [String.append] used throughout. *)
Lemma str_app_assoc (a b c : string) : (a ++ b) ++ c = a ++ (b ++ c).
Proof. induction a as [|x a IH]; simpl; [reflexivity | now rewrite IH]. Qed.

Lemma str_app_nil_r (a : string) : a ++ "" = a.
Proof. induction a as [|x a IH]; simpl; [reflexivity | now rewrite IH]. Qed.


(** The snippet of [setReadOnly(false)] is not a program: the two string
    literals of editor.cpp join into [property('readonly', false)editor...]
    with no [;] between the two calls. *)
Lemma setReadOnly_false_code_rejected (pg : page) :
  eval_js pg ("property('readonly', false)" ++ "editor.setReadOnly(false);") = (None, pg).
Proof. reflexivity. Qed.

Lemma setReadOnly_true_code_runs (pg : page) :
  pg_loaded pg = true -> pg_wrapper pg = true ->
  eval_js pg ("property('readonly', true);" ++ "editor.setReadOnly(true);") =
  (Some JUndefined,
   with_readonly (with_props pg (("readonly", JBool true) :: pg_props pg)) true).
Proof.
  intros Hl Hw.
  assert (Hp : parse ("property('readonly', true);" ++ "editor.setReadOnly(true);") =
               Some [[SName "property"; SCall [JStr "readonly"; JBool true]];
                     [SName "editor"; SName "setReadOnly"; SCall [JBool true]]])
    by (vm_compute; reflexivity).
  unfold eval_js; rewrite Hp; cbn.
  rewrite Hw; cbn. rewrite Hl. reflexivity.
Qed.

(** C1: [setReadOnly(true)] then [setReadOnly(false)] leaves [isReadOnly()]
    true: the second call evaluates a snippet that does not parse. *)
Theorem setReadOnly_false_after_true (w : world)
  (Hload : pg_loaded (w_page w) = true) (Hwr : pg_wrapper (w_page w) = true) :
  fst (isReadOnly (snd (run_ops [OpSetReadOnly true; OpSetReadOnly false] w))) = true.
Proof.
  destruct w as [[l nv wr ps t sel row ro md th sc] log]; cbn in Hload, Hwr; subst.
  vm_compute. reflexivity.
Qed.

Lemma setReadOnly_false_after_true_witness :
  pg_loaded (w_page (Editor bundled)) = true /\
  fst (isReadOnly (snd (run_ops [OpSetReadOnly true; OpSetReadOnly false]
                          (Editor bundled)))) = true.
Proof.
  split; [vm_compute; reflexivity |].
  apply setReadOnly_false_after_true; vm_compute; reflexivity.
Defined.

(** C2: [setText(s)] splices [s] between single quotes as it is, and for a
    text with a quote, or with a backslash, the snippet is not the call
    [editor.setValue] with [s] as its one string argument. *)
Theorem setText_unescaped :
  (forall (s : string) (w : world),
     setText s w =
     (let (_, w1) := executeJavaScript ("editor.setValue('" ++ s ++ "')") w in
      let (_, w2) := executeJavaScript "editor.selection.clearSelection()" w1 in
      (tt, w2))) /\
  (exists s, has_char "'"%char s = true /\
     parse ("editor.setValue('" ++ s ++ "')") <>
     Some [[SName "editor"; SName "setValue"; SCall [JStr s]]]) /\
  (exists s, has_char "\"%char s = true /\
     parse ("editor.setValue('" ++ s ++ "')") <>
     Some [[SName "editor"; SName "setValue"; SCall [JStr s]]]).
Proof.
  split; [|split].
  - intros s w. unfold setText, setText_code, bind, ret.
    destruct (executeJavaScript _ w) as [v1 w1].
    destruct (executeJavaScript _ w1) as [v2 w2]. reflexivity.
  - exists "it's". split; [reflexivity | vm_compute; discriminate].
  - exists "C:\new". split; [reflexivity | vm_compute; discriminate].
Qed.

(** C4: when the evaluation of the reading snippet throws or gives
    [undefined], [lines()] is 0, [text()] is empty and [isReadOnly()] is
    false; the operations return a value in every case. *)
Theorem failed_reads_default (w : world) :
  (js_fails (fst (eval_js (w_page w) "property('lines')")) = true ->
   fst (lines w) = 0%Z) /\
  (js_fails (fst (eval_js (w_page w) "property('text')")) = true ->
   fst (text w) = "") /\
  (js_fails (fst (eval_js (w_page w) "property('readonly')")) = true ->
   fst (isReadOnly w) = false).
Proof.
  unfold lines, text, isReadOnly, bind, ret, executeJavaScript.
  repeat split;
    match goal with
    | |- context [eval_js ?pg ?c] => destruct (eval_js pg c) as [[[] |] pg']
    end; cbn; solve [reflexivity | discriminate].
Qed.

Lemma failed_reads_default_witness :
  js_fails (fst (eval_js (w_page initial_world) "property('lines')")) = true /\
  fst (lines initial_world) = 0%Z /\ fst (text initial_world) = "" /\
  fst (isReadOnly initial_world) = false.
Proof.
  destruct (failed_reads_default initial_world) as [H1 [H2 H3]].
  split; [vm_compute; reflexivity |].
  split; [apply H1; vm_compute; reflexivity |].
  split; [apply H2; vm_compute; reflexivity | apply H3; vm_compute; reflexivity].
Defined.

(** C5: for every enumerated mode, [setHighlightMode] evaluates the snippet
    loading [qrc:/ace/mode-<id>.js] and selecting [ace/mode/<id>] for the
    documented identifier, and the page ends with that script requested and
    that mode set. *)
Theorem setHighlightMode_documented (m : HighlightMode) (id : string) (w : world)
  (Hin : In (m, id) documented_modes) (Hload : pg_loaded (w_page w) = true) :
  setHighlightMode m w =
  (tt, mkWorld
         (with_mode (with_script (w_page w) ("qrc:/ace/mode-" ++ id ++ ".js"))
            ("ace/mode/" ++ id))
         (w_log w ++
          [EvEval ("$.getScript('qrc:/ace/mode-" ++ id ++ ".js');" ++
                   "editor.getSession().setMode('ace/mode/" ++ id ++ "');")
                  (bootstrapped (w_page w))])%list).
Proof.
  destruct w as [[l nv wr ps t sel row ro md th sc] log]; cbn in Hload; subst.
  cbn in Hin.
  repeat (destruct Hin as [Hin | Hin];
          [injection Hin as <- <-; vm_compute; reflexivity |]).
  contradiction.
Qed.

Lemma setHighlightMode_documented_witness :
  In (ModePython, "python") documented_modes /\
  pg_loaded (w_page (Editor bundled)) = true /\
  setHighlightMode ModePython (Editor bundled) =
  (tt, mkWorld
         (with_mode (with_script (w_page (Editor bundled)) "qrc:/ace/mode-python.js")
            "ace/mode/python")
         (w_log (Editor bundled) ++
          [EvEval ("$.getScript('qrc:/ace/mode-python.js');" ++
                   "editor.getSession().setMode('ace/mode/python');")
                  (bootstrapped (w_page (Editor bundled)))])%list).
Proof.
  split; [cbn; tauto |]. split; [vm_compute; reflexivity |].
  apply (setHighlightMode_documented ModePython "python" (Editor bundled));
    [cbn; tauto | vm_compute; reflexivity].
Defined.

(** C6: the same for every enumerated theme and [editor.setTheme]. *)
Theorem setTheme_documented (th : Theme) (id : string) (w : world)
  (Hin : In (th, id) documented_themes) (Hload : pg_loaded (w_page w) = true) :
  setTheme th w =
  (tt, mkWorld
         (with_theme (with_script (w_page w) ("qrc:/ace/theme-" ++ id ++ ".js"))
            ("ace/theme/" ++ id))
         (w_log w ++
          [EvEval ("$.getScript('qrc:/ace/theme-" ++ id ++ ".js');" ++
                   "editor.setTheme('ace/theme/" ++ id ++ "');")
                  (bootstrapped (w_page w))])%list).
Proof.
  destruct w as [[l nv wr ps t sel row ro md th' sc] log]; cbn in Hload; subst.
  cbn in Hin.
  repeat (destruct Hin as [Hin | Hin];
          [injection Hin as <- <-; vm_compute; reflexivity |]).
  contradiction.
Qed.

Lemma setTheme_documented_witness :
  In (ThemeMonokai, "monokai") documented_themes /\
  pg_loaded (w_page (Editor bundled)) = true /\
  setTheme ThemeMonokai (Editor bundled) =
  (tt, mkWorld
         (with_theme (with_script (w_page (Editor bundled)) "qrc:/ace/theme-monokai.js")
            "ace/theme/monokai")
         (w_log (Editor bundled) ++
          [EvEval ("$.getScript('qrc:/ace/theme-monokai.js');" ++
                   "editor.setTheme('ace/theme/monokai');")
                  (bootstrapped (w_page (Editor bundled)))])%list).
Proof.
  split; [cbn; tauto |]. split; [vm_compute; reflexivity |].
  apply (setTheme_documented ThemeMonokai "monokai" (Editor bundled));
    [cbn; tauto | vm_compute; reflexivity].
Defined.

(** C9: a value of the enumeration that is none of its enumerators makes
    [setHighlightMode] (and [setTheme]) a no-op: no evaluation, no change. *)
Theorem enum_switch_other_noop (m : HighlightMode) (th : Theme) (w : world)
  (Hm : ~ In m modes) (Ht : ~ In th themes) :
  setHighlightMode m w = (tt, w) /\ setTheme th w = (tt, w).
Proof.
  unfold setHighlightMode, setTheme.
  repeat match goal with
         | |- context [Z.eqb ?a ?b] =>
             destruct (Z.eqb_spec a b) as [-> | _];
             [exfalso; cbn in Hm, Ht; tauto |]
         end.
  split; reflexivity.
Qed.

Lemma enum_switch_other_noop_witness :
  ~ In 9%Z modes /\ ~ In 3%Z themes /\
  setHighlightMode 9%Z (Editor bundled) = (tt, Editor bundled) /\
  setTheme 3%Z (Editor bundled) = (tt, Editor bundled).
Proof.
  assert (Hm : ~ In 9%Z modes)
    by (intros H; vm_compute in H; repeat (destruct H as [H | H]; [discriminate |]); exact H).
  assert (Ht : ~ In 3%Z themes)
    by (intros H; vm_compute in H; repeat (destruct H as [H | H]; [discriminate |]); exact H).
  split; [exact Hm |]. split; [exact Ht |].
  exact (enum_switch_other_noop 9%Z 3%Z (Editor bundled) Hm Ht).
Defined.

(** C10: each enumerator's overload is the name/URL overload applied to the
    pair of its [case]. *)
Theorem enum_overloads_refine (m : HighlightMode) (mn : string) (mu : QUrl)
  (th : Theme) (tn : string) (tu : QUrl)
  (Hm : In (m, mn, mu) mode_table) (Ht : In (th, tn, tu) theme_table) :
  setHighlightMode m = setHighlightMode_by_name mn mu /\
  setTheme th = setTheme_by_name tn tu.
Proof.
  split.
  - cbn in Hm.
    repeat (destruct Hm as [Hm | Hm]; [injection Hm as <- <- <-; reflexivity |]).
    contradiction.
  - cbn in Ht.
    repeat (destruct Ht as [Ht | Ht]; [injection Ht as <- <- <-; reflexivity |]).
    contradiction.
Qed.

Lemma enum_overloads_refine_witness :
  setHighlightMode ModeCpp = setHighlightMode_by_name "c_cpp" "qrc:/ace/mode-c_cpp.js" /\
  setTheme ThemeTextMate = setTheme_by_name "textmate" "qrc:/ace/theme-textmate.js".
Proof.
  apply (enum_overloads_refine ModeCpp "c_cpp" "qrc:/ace/mode-c_cpp.js"
           ThemeTextMate "textmate" "qrc:/ace/theme-textmate.js");
    cbn; tauto.
Defined.

(** ** Lexing a spliced text *)

Lemma has_char_cons (q c : ascii) (s : string) :
  has_char q (String c s) = false -> Ascii.eqb c q = false /\ has_char q s = false.
Proof. cbn. now rewrite Bool.orb_false_iff. Qed.

(** A text with no single quote, backslash or line break is read back as
    the body of a single-quoted literal. *)
Lemma lex_string_body (s acc r : string) (out : list token) :
  has_char "'"%char s = false -> has_char "\"%char s = false ->
  has_char CR s = false -> has_char LF s = false ->
  lex_from (s ++ String "'" r) (LStr "'" acc) out = lex_from r LTop (TStr (acc ++ s) :: out).
Proof.
  revert acc. induction s as [|c s IH]; intros acc Hq Hb Hcr Hlf.
  - cbn. now rewrite str_app_nil_r.
  - apply has_char_cons in Hq as [Hq1 Hq]. apply has_char_cons in Hb as [Hb1 Hb].
    apply has_char_cons in Hcr as [Hcr1 Hcr]. apply has_char_cons in Hlf as [Hlf1 Hlf].
    change (String c s ++ String "'" r) with (String c (s ++ String "'" r)).
    cbn [lex_from]. rewrite Hq1, Hb1. unfold is_line_terminator. rewrite Hlf1, Hcr1.
    cbn [orb]. rewrite (IH _ Hq Hb Hcr Hlf). now rewrite str_app_assoc.
Qed.







(** ** Lexing [QString::number] *)

Lemma lex_from_digit_start (d : ascii) (x : string) (out : list token) :
  dispatch d = Some ([], LNum (String d "")) ->
  lex_from (String d x) LTop out = lex_from x (LNum (String d "")) out.
Proof. intros H. cbn [lex_from]. now rewrite H. Qed.

Lemma lex_from_digit_more (d : ascii) (x a : string) (out : list token) :
  is_digit d = true ->
  lex_from (String d x) (LNum a) out = lex_from x (LNum (a ++ String d "")) out.
Proof. intros H. cbn [lex_from]. now rewrite H. Qed.

Lemma lex_from_punct (c : ascii) (tk : token) (x : string) (out : list token) :
  dispatch c = Some ([tk], LTop) ->
  lex_from (String c x) LTop out = lex_from x LTop (tk :: out).
Proof. intros H. cbn [lex_from]. now rewrite H. Qed.

Lemma lex_digits (u : uint) (acc r : string) (c : ascii) (out : list token) :
  is_digit c = false ->
  lex_from (NilEmpty.string_of_uint u ++ String c r) (LNum acc) out =
  lex_from (String c r) (LNum (acc ++ NilEmpty.string_of_uint u)) out.
Proof.
  intros Hc. revert acc.
  induction u as [|u IH|u IH|u IH|u IH|u IH|u IH|u IH|u IH|u IH|u IH]; intros acc;
    cbn [NilEmpty.string_of_uint String.append].
  1: now rewrite str_app_nil_r.
  all: rewrite lex_from_digit_more by reflexivity; rewrite IH;
       now rewrite str_app_assoc.
Qed.

(** The digits of a non-empty decimal followed by [")"]. *)
Lemma lex_number_close (u : uint) (r : string) (out : list token) :
  u <> Nil ->
  lex_from (NilEmpty.string_of_uint u ++ String ")" r) LTop out =
  lex_from r LTop (TRParen :: TNum u :: out).
Proof.
  intros Hu.
  assert (Hclose : forall a, NilEmpty.uint_of_string a = Some u ->
            lex_from (String ")" r) (LNum a) out = lex_from r LTop (TRParen :: TNum u :: out)).
  { intros a Ha. cbn [lex_from]. rewrite Ha. reflexivity. }
  destruct u as [|u|u|u|u|u|u|u|u|u|u]; [congruence | ..];
    cbn [NilEmpty.string_of_uint String.append];
    rewrite lex_from_digit_start by reflexivity;
    rewrite lex_digits by reflexivity;
    apply Hclose; match goal with |- _ = Some ?d => exact (NilEmpty.usu d) end.
Qed.

Lemma to_int_nonnil (n : Z) : Z.to_int n <> Pos Nil /\ Z.to_int n <> Neg Nil.
Proof.
  pose proof (DecimalZ.of_to n) as Hn.
  split; intros E; rewrite E in Hn; cbn in Hn; subst n; discriminate E.
Qed.

Lemma lex_gotoLine_code (n : Z) :
  lex (gotoLine_code n) =
  Some (match Z.to_int n with
        | Pos u => [TIdent "editor"; TDot; TIdent "gotoLine"; TLParen; TNum u; TRParen]
        | Neg u => [TIdent "editor"; TDot; TIdent "gotoLine"; TLParen; TMinus; TNum u; TRParen]
        end).
Proof.
  destruct (to_int_nonnil n) as [Hp Hm].
  unfold lex, gotoLine_code, number.
  transitivity (lex_from (NilEmpty.string_of_int (Z.to_int n) ++ ")") LTop
                  [TLParen; TIdent "gotoLine"; TDot; TIdent "editor"]).
  { reflexivity. }
  destruct (Z.to_int n) as [u|u]; cbn [NilEmpty.string_of_int String.append].
  - rewrite lex_number_close by congruence. reflexivity.
  - rewrite (lex_from_punct "-" TMinus) by reflexivity.
    rewrite lex_number_close by congruence. reflexivity.
Qed.

Lemma parse_gotoLine_code (n : Z) :
  parse (gotoLine_code n) = Some [[SName "editor"; SName "gotoLine"; SCall [JNum n]]].
Proof.
  pose proof (DecimalZ.of_to n) as Hn.
  unfold parse. rewrite lex_gotoLine_code.
  destruct (Z.to_int n) as [u|u] eqn:E; cbn [Z.of_int] in Hn; rewrite <- Hn; reflexivity.
Qed.

(** C8: [gotoLine(n)] evaluates [editor.gotoLine(n)] for every [n], with no
    check of its own: the snippet is always the one call with [n] as its
    argument, and what happens to an out-of-range [n] is Ace's clipping. *)
Theorem gotoLine_unchecked (n : Z) (w : world) :
  gotoLine n w =
  (tt, mkWorld (snd (eval_js (w_page w) ("editor.gotoLine(" ++ number n ++ ")")))
         (w_log w ++ [EvEval ("editor.gotoLine(" ++ number n ++ ")")
                             (bootstrapped (w_page w))])%list) /\
  parse ("editor.gotoLine(" ++ number n ++ ")") =
  Some [[SName "editor"; SName "gotoLine"; SCall [JNum n]]] /\
  snd (eval_js (w_page w) ("editor.gotoLine(" ++ number n ++ ")")) =
  (if pg_loaded (w_page w) then with_row (w_page w) (clip_row (w_page w) n)
   else w_page w).
Proof.
  pose proof (parse_gotoLine_code n) as Hp. unfold gotoLine_code in Hp.
  split; [| split; [exact Hp |]].
  - unfold gotoLine, gotoLine_code, bind, ret, executeJavaScript.
    destruct (eval_js _ _) as [r pg']. reflexivity.
  - unfold eval_js.
    replace (String.eqb ("editor.gotoLine(" ++ number n ++ ")") wrapper_js) with false
      by reflexivity.
    rewrite Hp. cbn. destruct (pg_loaded (w_page w)); reflexivity.
Qed.

(** ** Construction and the order of evaluations *)














Lemma Editor_ready (res : resources) :
  bootstrapped (w_page (Editor res)) = res_ace_html res && res_wrapper res.
Proof. destruct res as [[|] [|]]; reflexivity. Qed.



End Proofs.

Module Extras.
Import Js Page Qt Novile Documented Proofs.

(** The queries evaluate a read of a page-side property and change nothing
    on the page, whatever its state. *)
Theorem queries_keep_page (w : world) :
  w_page (snd (lines w)) = w_page w /\
  w_page (snd (text w)) = w_page w /\
  w_page (snd (isReadOnly w)) = w_page w.
Proof.
  destruct w as [[l nv wr ps tx sel row ro md th sc] log].
  destruct wr; vm_compute; repeat split; reflexivity.
Qed.

(** A quote-free, backslash-free text holding a line break cannot be the body
    of a single-quoted literal: the lexer stops at the break. *)
Lemma lex_string_body_break (s acc r : string) (out : list token) :
  has_char "'"%char s = false -> has_char "\"%char s = false ->
  has_char CR s || has_char LF s = true ->
  lex_from (s ++ String "'" r) (LStr "'" acc) out = None.
Proof.
  revert acc. induction s as [|c s IH]; intros acc Hq Hb Hbr.
  - discriminate Hbr.
  - apply has_char_cons in Hq as [Hq1 Hq]. apply has_char_cons in Hb as [Hb1 Hb].
    change (String c s ++ String "'" r) with (String c (s ++ String "'" r)).
    cbn [lex_from]. rewrite Hq1, Hb1.
    destruct (is_line_terminator c) eqn:Ht; [reflexivity |].
    apply IH; [exact Hq | exact Hb |].
    unfold is_line_terminator in Ht. apply Bool.orb_false_iff in Ht as [Hlf Hcr].
    cbn [has_char] in Hbr. rewrite Hcr, Hlf in Hbr. exact Hbr.
Qed.

Lemma eval_setText_code_break (pg : page) (s : string) :
  has_char "'"%char s = false -> has_char "\"%char s = false ->
  has_char CR s || has_char LF s = true ->
  eval_js pg (setText_code s) = (None, pg).
Proof.
  intros Hq Hb Hbr. unfold eval_js.
  replace (String.eqb (setText_code s) wrapper_js) with false by reflexivity.
  assert (Hl : lex (setText_code s) = None).
  { unfold lex, setText_code.
    transitivity (lex_from (s ++ String "'" (String ")" "")) (LStr "'" "")
                    [TLParen; TIdent "setValue"; TDot; TIdent "editor"]).
    { reflexivity. }
    exact (lex_string_body_break s "" _ _ Hq Hb Hbr). }
  unfold parse. rewrite Hl. reflexivity.
Qed.

Lemma eval_clearSelection (pg : page) :
  eval_js pg "editor.selection.clearSelection()" =
  (if pg_loaded pg then (Some JUndefined, with_selection pg false) else (None, pg)).
Proof. destruct pg as [[|] nv wr ps tx sel row ro md th sc]; reflexivity. Qed.

(** [setText(s)] with a text that holds a line break (and no quote or
    backslash) leaves the document as it was: the snippet does not parse. *)
Theorem setText_line_break_keeps_document (s : string) (w : world)
  (Hq : has_char "'"%char s = false) (Hb : has_char "\"%char s = false)
  (Hbr : has_char CR s || has_char LF s = true) :
  pg_text (w_page (snd (setText s w))) = pg_text (w_page w).
Proof.
  unfold setText, bind, ret, executeJavaScript; cbn [w_page w_log].
  rewrite (eval_setText_code_break _ s Hq Hb Hbr). cbn [fst snd w_page].
  rewrite eval_clearSelection. destruct (pg_loaded (w_page w)); reflexivity.
Qed.

Lemma setText_line_break_keeps_document_witness :
  has_char "'"%char "a
b" = false /\ has_char "\"%char "a
b" = false /\ has_char CR "a
b" || has_char LF "a
b" = true /\
  pg_text (w_page (snd (setText "a
b" (Editor bundled)))) = pg_text (w_page (Editor bundled)).
Proof.
  split; [reflexivity | split; [reflexivity | split; [reflexivity |]]].
  apply (setText_line_break_keeps_document "a
b" (Editor bundled)); reflexivity.
Defined.

(** On a loaded page with its helper script, [setReadOnly(true)] sets both
    the page-side property and Ace's own flag, so [isReadOnly()] returns
    true afterwards. *)
Theorem setReadOnly_true_sets_both (w : world)
  (Hload : pg_loaded (w_page w) = true) (Hwr : pg_wrapper (w_page w) = true) :
  pg_readonly (w_page (snd (setReadOnly true w))) = true /\
  fst (isReadOnly (snd (setReadOnly true w))) = true.
Proof.
  destruct w as [[l nv wr ps tx sel row ro md th sc] log]; cbn in Hload, Hwr; subst.
  vm_compute. split; reflexivity.
Qed.

Lemma setReadOnly_true_sets_both_witness :
  pg_loaded (w_page (Editor bundled)) = true /\ pg_wrapper (w_page (Editor bundled)) = true /\
  pg_readonly (w_page (snd (setReadOnly true (Editor bundled)))) = true /\
  fst (isReadOnly (snd (setReadOnly true (Editor bundled)))) = true.
Proof.
  split; [reflexivity | split; [reflexivity |]].
  apply (setReadOnly_true_sets_both (Editor bundled)); reflexivity.
Defined.

(** [setReadOnly(false)] never changes the page, in any state: its snippet
    is rejected before anything runs. *)
Theorem setReadOnly_false_never_changes_page (w : world) :
  w_page (snd (setReadOnly false w)) = w_page w.
Proof.
  unfold setReadOnly, bind, ret, executeJavaScript.
  rewrite setReadOnly_false_code_rejected. reflexivity.
Qed.

(** The request of [setHighlightMode(name, url)] with a plain [name] and
    [url] lexes as the two intended calls. *)
Lemma lex_mode_request (name url : string) :
  has_char "'"%char name = false -> has_char "\"%char name = false ->
  has_char CR name = false -> has_char LF name = false ->
  has_char "'"%char url = false -> has_char "\"%char url = false ->
  has_char CR url = false -> has_char LF url = false ->
  lex ("" ++ "$.getScript('" ++ url ++ "');" ++
       "editor.getSession().setMode('ace/mode/" ++ name ++ "');") =
  Some [TIdent "$"; TDot; TIdent "getScript"; TLParen; TStr url; TRParen; TSemi;
        TIdent "editor"; TDot; TIdent "getSession"; TLParen; TRParen; TDot;
        TIdent "setMode"; TLParen; TStr ("ace/mode/" ++ name); TRParen; TSemi].
Proof.
  intros Hq Hb Hcr Hlf Hq' Hb' Hcr' Hlf'. unfold lex.
  transitivity (lex_from (url ++ String "'" (");" ++
                  "editor.getSession().setMode('ace/mode/" ++ name ++ "');"))
                  (LStr "'" "") [TLParen; TIdent "getScript"; TDot; TIdent "$"]).
  { reflexivity. }
  rewrite (lex_string_body url "" _ _ Hq' Hb' Hcr' Hlf').
  transitivity (lex_from (name ++ String "'" ");") (LStr "'" "ace/mode/")
                  [TLParen; TIdent "setMode"; TDot; TRParen; TLParen;
                   TIdent "getSession"; TDot; TIdent "editor"; TSemi; TRParen;
                   TStr url; TLParen; TIdent "getScript"; TDot; TIdent "$"]).
  { reflexivity. }
  rewrite (lex_string_body name "ace/mode/" _ _ Hq Hb Hcr Hlf). reflexivity.
Qed.

Lemma lex_theme_request (name url : string) :
  has_char "'"%char name = false -> has_char "\"%char name = false ->
  has_char CR name = false -> has_char LF name = false ->
  has_char "'"%char url = false -> has_char "\"%char url = false ->
  has_char CR url = false -> has_char LF url = false ->
  lex ("" ++ "$.getScript('" ++ url ++ "');" ++
       "editor.setTheme('ace/theme/" ++ name ++ "');") =
  Some [TIdent "$"; TDot; TIdent "getScript"; TLParen; TStr url; TRParen; TSemi;
        TIdent "editor"; TDot; TIdent "setTheme"; TLParen;
        TStr ("ace/theme/" ++ name); TRParen; TSemi].
Proof.
  intros Hq Hb Hcr Hlf Hq' Hb' Hcr' Hlf'. unfold lex.
  transitivity (lex_from (url ++ String "'" (");" ++
                  "editor.setTheme('ace/theme/" ++ name ++ "');"))
                  (LStr "'" "") [TLParen; TIdent "getScript"; TDot; TIdent "$"]).
  { reflexivity. }
  rewrite (lex_string_body url "" _ _ Hq' Hb' Hcr' Hlf').
  transitivity (lex_from (name ++ String "'" ");") (LStr "'" "ace/theme/")
                  [TLParen; TIdent "setTheme"; TDot; TIdent "editor"; TSemi; TRParen;
                   TStr url; TLParen; TIdent "getScript"; TDot; TIdent "$"]).
  { reflexivity. }
  rewrite (lex_string_body name "ace/theme/" _ _ Hq Hb Hcr Hlf). reflexivity.
Qed.

(** [setHighlightMode(name, url)] with a name and a URL that hold no quote,
    backslash or line break, on a loaded page: the URL is appended to the
    requested scripts and the session's mode becomes [ace/mode/name]. *)
Theorem setHighlightMode_by_name_effect (name url : string) (w : world)
  (Hq : has_char "'"%char name = false) (Hb : has_char "\"%char name = false)
  (Hcr : has_char CR name = false) (Hlf : has_char LF name = false)
  (Hq' : has_char "'"%char url = false) (Hb' : has_char "\"%char url = false)
  (Hcr' : has_char CR url = false) (Hlf' : has_char LF url = false)
  (Hload : pg_loaded (w_page w) = true) :
  w_page (snd (setHighlightMode_by_name name url w)) =
  with_mode (with_script (w_page w) url) ("ace/mode/" ++ name).
Proof.
  unfold setHighlightMode_by_name, bind, ret, executeJavaScript; cbn [w_page].
  unfold eval_js at 1.
  replace (String.eqb _ wrapper_js) with false by reflexivity.
  unfold parse. rewrite (lex_mode_request name url Hq Hb Hcr Hlf Hq' Hb' Hcr' Hlf').
  destruct w as [[l nv wr ps tx sel row ro md th sc] log]; cbn in Hload; subst.
  reflexivity.
Qed.

Lemma setHighlightMode_by_name_effect_witness :
  w_page (snd (setHighlightMode_by_name "lua" "qrc:/js/mode-lua.js" (Editor bundled))) =
  with_mode (with_script (w_page (Editor bundled)) "qrc:/js/mode-lua.js") ("ace/mode/" ++ "lua").
Proof.
  apply (setHighlightMode_by_name_effect "lua" "qrc:/js/mode-lua.js" (Editor bundled));
    reflexivity.
Defined.

(** The same for [setTheme(name, url)]: the URL is requested and the theme
    becomes [ace/theme/name]. *)
Theorem setTheme_by_name_effect (name url : string) (w : world)
  (Hq : has_char "'"%char name = false) (Hb : has_char "\"%char name = false)
  (Hcr : has_char CR name = false) (Hlf : has_char LF name = false)
  (Hq' : has_char "'"%char url = false) (Hb' : has_char "\"%char url = false)
  (Hcr' : has_char CR url = false) (Hlf' : has_char LF url = false)
  (Hload : pg_loaded (w_page w) = true) :
  w_page (snd (setTheme_by_name name url w)) =
  with_theme (with_script (w_page w) url) ("ace/theme/" ++ name).
Proof.
  unfold setTheme_by_name, bind, ret, executeJavaScript; cbn [w_page].
  unfold eval_js at 1.
  replace (String.eqb _ wrapper_js) with false by reflexivity.
  unfold parse. rewrite (lex_theme_request name url Hq Hb Hcr Hlf Hq' Hb' Hcr' Hlf').
  destruct w as [[l nv wr ps tx sel row ro md th sc] log]; cbn in Hload; subst.
  reflexivity.
Qed.

Lemma setTheme_by_name_effect_witness :
  w_page (snd (setTheme_by_name "dawn" "qrc:/js/theme-dawn.js" (Editor bundled))) =
  with_theme (with_script (w_page (Editor bundled)) "qrc:/js/theme-dawn.js") ("ace/theme/" ++ "dawn").
Proof.
  apply (setTheme_by_name_effect "dawn" "qrc:/js/theme-dawn.js" (Editor bundled));
    reflexivity.
Defined.

(** [gotoLine], and the enumeration overloads of [setHighlightMode] and
    [setTheme], never change the document, Ace's read-only flag or the
    page-side properties, whatever the argument and the page. *)
Theorem navigation_and_styling_keep_document (n : Z) (m : HighlightMode) (th : Theme)
  (w : world) :
  doc_state (w_page (snd (gotoLine n w))) = doc_state (w_page w) /\
  doc_state (w_page (snd (setHighlightMode m w))) = doc_state (w_page w) /\
  doc_state (w_page (snd (setTheme th w))) = doc_state (w_page w).
Proof.
  destruct w as [[l nv wr ps tx sel row ro md th' sc] log].
  split; [| split].
  - unfold gotoLine, bind, ret, executeJavaScript; cbn [w_page].
    unfold eval_js.
    replace (String.eqb (gotoLine_code n) wrapper_js) with false by reflexivity.
    rewrite parse_gotoLine_code. destruct l; reflexivity.
  - unfold setHighlightMode;
      repeat match goal with |- context [if Z.eqb ?a ?b then _ else _] =>
               destruct (Z.eqb a b) end;
      destruct l; vm_compute; reflexivity.
  - unfold setTheme;
      repeat match goal with |- context [if Z.eqb ?a ?b then _ else _] =>
               destruct (Z.eqb a b) end;
      destruct l; vm_compute; reflexivity.
Qed.

(** A widget whose page failed to load, or whose helper resource did not
    open, answers every query with its default: [lines()] 0, [text()] the
    empty string and [isReadOnly()] false. *)
Theorem failed_construction_defaults (res : resources)
  (Hfail : res_ace_html res && res_wrapper res = false) :
  fst (lines (Editor res)) = 0%Z /\ fst (text (Editor res)) = "" /\
  fst (isReadOnly (Editor res)) = false.
Proof.
  destruct res as [[|] [|]]; cbn in Hfail; try discriminate;
    vm_compute; repeat split; reflexivity.
Qed.

Lemma failed_construction_defaults_witness :
  fst (lines (Editor (mkResources true false))) = 0%Z /\
  fst (text (Editor (mkResources true false))) = "" /\
  fst (isReadOnly (Editor (mkResources true false))) = false.
Proof. apply (failed_construction_defaults (mkResources true false)); reflexivity. Defined.

(** Without the helper script, [setReadOnly(true)] changes nothing: the
    [property] call that opens its snippet throws, so Ace's own
    [setReadOnly(true)] never runs. *)
Theorem setReadOnly_true_needs_helper (w : world)
  (Hwr : pg_wrapper (w_page w) = false) :
  w_page (snd (setReadOnly true w)) = w_page w.
Proof.
  destruct w as [[l nv wr ps tx sel row ro md th sc] log]; cbn in Hwr; subst.
  destruct l; reflexivity.
Qed.

Lemma setReadOnly_true_needs_helper_witness :
  w_page (snd (setReadOnly true (Editor (mkResources true false)))) =
  w_page (Editor (mkResources true false)).
Proof. apply (setReadOnly_true_needs_helper (Editor (mkResources true false))); reflexivity. Defined.

End Extras.
